(** * new_calc.set_random_seed: a shallow embedding and its contract

    The module [src/new_calc.py] holds one function, [set_random_seed], which
    fixes a seed (drawing one from [os.urandom] when none is given) and pushes
    it into the process environment, the standard [random] generator and, when
    they could be imported, numpy and torch.

    The function is a straight sequence of effects on process-wide state, two
    of them under [try ... except Exception: pass].  It is embedded here as a
    program in a small state-and-exception monad over a record [World] that
    holds exactly the globals the function touches.

    Modelling boundaries.
    - [numpy], [torch] and the Mersenne Twister behind [random] are not part
      of the repository: they are taken as interfaces ([numpy_module],
      [torch_module], [random_module]) over abstract states, and every
      theorem is proved for all their implementations.
    - A call into numpy or torch may raise.  What it raises is an instance of
      Python's [Exception]; [KeyboardInterrupt] and [SystemExit], which are
      not [Exception]s and are delivered asynchronously, are outside the
      model.
    - The seed argument is an instance of [int], which a [bool] is too.  A
      library receives it as its integer value.
    - [str] on an [int] raises [ValueError] past the interpreter's digit
      limit ([sys.int_info.default_max_str_digits], 4300); line 36 calls it
      outside both guards.
    - [os.urandom], the assignment into [os.environ] and [random.seed] on an
      [int] are total.
    - The two assignments to [torch.backends.cudnn] are plain attribute
      stores.
    - For the demo under [if __name__ == "__main__"], an import either binds
      the library or raises; it does not touch the globals above.  Text is
      held as UTF-8; what reaches standard output goes through the encoder
      of [sys.stdout], which raises [UnicodeEncodeError] on a character its
      encoding lacks. *)

From Stdlib Require Import ZArith Lia List Strings.Byte DecimalString.
From Stdlib Require Import Ascii DecimalPos DecimalZ.
From stdpp Require Import base strings gmap.
Import ListNotations.

Local Open Scope Z_scope.

(** ** Exceptions and results *)

(** Instances of Python's [Exception] class that the libraries are known to
    raise, plus a catch-all carrying the class name. *)
Inductive Exception : Type :=
  | ValueError
  | TypeError
  | RuntimeError
  | OverflowError
  | AttributeError
  | UnicodeEncodeError
  | OtherException (cls : string).

Inductive result (A : Type) : Type :=
  | Return (a : A)
  | Raise (e : Exception).
Arguments Return {A} a.
Arguments Raise {A} e.

(** ** The optional libraries, as interfaces *)

(** [random]: [rnd_seed a] is the state [random.seed(a)] installs for an
    [int] [a] (the previous state is discarded); [rnd_draw] is one draw. *)
Record random_module (R : Type) : Type := {
  rnd_seed : Z -> R;
  rnd_draw : R -> Z * R
}.
Arguments rnd_seed {R} _ _.
Arguments rnd_draw {R} _ _.

(** [numpy]: [np.random.seed(seed)] acts on numpy's global [RandomState] and
    may raise. *)
Record numpy_module (N : Type) : Type := {
  np_random_seed : Z -> N -> N * result unit
}.
Arguments np_random_seed {N} _ _ _.

(** [torch]: [torch.manual_seed], [torch.cuda.is_available] and
    [torch.cuda.manual_seed_all] act on torch's generators and may raise. *)
Record torch_module (T : Type) : Type := {
  manual_seed : Z -> T -> T * result unit;
  cuda_is_available : T -> T * result bool;
  cuda_manual_seed_all : Z -> T -> T * result unit
}.
Arguments manual_seed {T} _ _ _.
Arguments cuda_is_available {T} _ _.
Arguments cuda_manual_seed_all {T} _ _ _.

(** ** Process-wide state *)

Record World (R N T : Type) : Type := mkWorld {
  environ : gmap string string;       (* os.environ *)
  entropy : nat -> byte;              (* bytes os.urandom has yet to hand out *)
  random_inst : R;                    (* the hidden instance behind random.* *)
  np_global : N;                      (* numpy's global RandomState *)
  torch_gen : T;                      (* torch's CPU and CUDA generators *)
  cudnn_deterministic : bool;         (* torch.backends.cudnn.deterministic *)
  cudnn_benchmark : bool              (* torch.backends.cudnn.benchmark *)
}.
Arguments mkWorld {R N T}.
Arguments environ {R N T} _.
Arguments entropy {R N T} _.
Arguments random_inst {R N T} _.
Arguments np_global {R N T} _.
Arguments torch_gen {R N T} _.
Arguments cudnn_deterministic {R N T} _.
Arguments cudnn_benchmark {R N T} _.

(** ** Built-ins *)

(** [int.from_bytes(bs, byteorder="little")], unsigned. *)
Fixpoint int_from_bytes_little (bs : list byte) : Z :=
  match bs with
  | [] => 0
  | b :: rest => Z.of_N (Byte.to_N b) + 256 * int_from_bytes_little rest
  end.

(** An instance of [int]: a plain integer or, [bool] being a subclass of
    [int], one of [True] and [False]. *)
Inductive pyint : Type :=
  | Int (n : Z)
  | Bool (b : bool).

(** [int(s)]: the integer itself; 1 and 0 for [True] and [False]. *)
Definition int (s : pyint) : Z :=
  match s with
  | Int n => n
  | Bool true => 1
  | Bool false => 0
  end.

(** Decimal digits, with a leading minus sign for a negative number. *)
Definition decimal (n : Z) : string := NilZero.string_of_int (Z.to_int n).

(** [sys.int_info.default_max_str_digits] *)
Definition int_max_str_digits : Z := 4300.

(** [str(s)]: the decimal form of a plain integer, unless it has more than
    [int_max_str_digits] digits, in which case [ValueError] is raised; the
    name of the constant for a [bool]. *)
Definition str (s : pyint) : result string :=
  match s with
  | Int n =>
      if Z.abs n <? 10 ^ int_max_str_digits
      then Return (decimal n)
      else Raise ValueError
  | Bool true => Return "True"
  | Bool false => Return "False"
  end.
Arguments str : simpl never.

(** [d.setdefault(k, v)] on a mapping, as a state change: an existing entry is
    kept, a missing one is created. *)
Definition setdefault (k v : string) (d : gmap string string) : gmap string string :=
  match d !! k with
  | Some _ => d
  | None => <[k := v]> d
  end.

Definition PYTHONHASHSEED : string := "PYTHONHASHSEED".

Section SeedInitializer.
Context {R N T : Type}.

(** Module-level bindings.  [np] and [torch] are [None] when the import at
    the top of the file failed. *)
Variable random : random_module R.
Variable np : option (numpy_module N).
Variable torch : option (torch_module T).

Abbreviation World := (World R N T).

(** *** The monad: state that survives a raise *)

Definition Py (A : Type) : Type := World -> World * result A.

Definition ret {A} (a : A) : Py A := fun w => (w, Return a).

Definition bind {A B} (m : Py A) (f : A -> Py B) : Py B :=
  fun w =>
    match m w with
    | (w', Return a) => f a w'
    | (w', Raise e) => (w', Raise e)
    end.

(** [try: body / except Exception: pass] *)
Definition try_except_pass (body : Py unit) : Py unit :=
  fun w =>
    match body w with
    | (w', Return u) => (w', Return u)
    | (w', Raise _) => (w', Return tt)
    end.

(** A computation that touches no state. *)
Definition pure {A} (r : result A) : Py A := fun w => (w, r).

(** stdpp's monad classes give the notations [x ← m; k] and [m ;; k]. *)
#[global] Instance Py_ret : MRet Py := @ret.
#[global] Instance Py_bind : MBind Py := fun A B f m => bind m f.

(** *** Field updates *)

Definition set_environ (e : gmap string string) (w : World) : World :=
  mkWorld e (entropy w) (random_inst w) (np_global w) (torch_gen w)
          (cudnn_deterministic w) (cudnn_benchmark w).
Definition set_entropy (f : nat -> byte) (w : World) : World :=
  mkWorld (environ w) f (random_inst w) (np_global w) (torch_gen w)
          (cudnn_deterministic w) (cudnn_benchmark w).
Definition set_random_inst (r : R) (w : World) : World :=
  mkWorld (environ w) (entropy w) r (np_global w) (torch_gen w)
          (cudnn_deterministic w) (cudnn_benchmark w).
Definition set_np_global (n : N) (w : World) : World :=
  mkWorld (environ w) (entropy w) (random_inst w) n (torch_gen w)
          (cudnn_deterministic w) (cudnn_benchmark w).
Definition set_torch_gen (t : T) (w : World) : World :=
  mkWorld (environ w) (entropy w) (random_inst w) (np_global w) t
          (cudnn_deterministic w) (cudnn_benchmark w).
Definition set_cudnn_deterministic (b : bool) (w : World) : World :=
  mkWorld (environ w) (entropy w) (random_inst w) (np_global w) (torch_gen w)
          b (cudnn_benchmark w).
Definition set_cudnn_benchmark (b : bool) (w : World) : World :=
  mkWorld (environ w) (entropy w) (random_inst w) (np_global w) (torch_gen w)
          (cudnn_deterministic w) b.

(** *** Primitive effects *)

(** [os.urandom(n)]: the next [n] bytes of the entropy source. *)
Definition os_urandom (n : nat) : Py (list byte) :=
  fun w =>
    (set_entropy (fun i => entropy w (n + i)%nat) w,
     Return (map (entropy w) (seq 0 n))).

(** [os.environ.setdefault(k, v)] *)
Definition os_environ_setdefault (k v : string) : Py unit :=
  fun w => (set_environ (setdefault k v (environ w)) w, Return tt).

(** [random.seed(a)] *)
Definition random_seed (a : pyint) : Py unit :=
  fun w => (set_random_inst (rnd_seed random (int a)) w, Return tt).

(** [np.random.seed(a)] *)
Definition np_random_seed_call (m : numpy_module N) (a : pyint) : Py unit :=
  fun w =>
    let '(n', r) := np_random_seed m (int a) (np_global w) in
    (set_np_global n' w, r).

(** [torch.manual_seed(a)] *)
Definition torch_manual_seed (m : torch_module T) (a : pyint) : Py unit :=
  fun w =>
    let '(t', r) := manual_seed m (int a) (torch_gen w) in
    (set_torch_gen t' w, r).

(** [torch.cuda.is_available()] *)
Definition torch_cuda_is_available (m : torch_module T) : Py bool :=
  fun w =>
    let '(t', r) := cuda_is_available m (torch_gen w) in
    (set_torch_gen t' w, r).

(** [torch.cuda.manual_seed_all(a)] *)
Definition torch_cuda_manual_seed_all (m : torch_module T) (a : pyint) : Py unit :=
  fun w =>
    let '(t', r) := cuda_manual_seed_all m (int a) (torch_gen w) in
    (set_torch_gen t' w, r).

(** [torch.backends.cudnn.deterministic = b] *)
Definition assign_cudnn_deterministic (b : bool) : Py unit :=
  fun w => (set_cudnn_deterministic b w, Return tt).

(** [torch.backends.cudnn.benchmark = b] *)
Definition assign_cudnn_benchmark (b : bool) : Py unit :=
  fun w => (set_cudnn_benchmark b w, Return tt).

(** *** The function *)

(** The body of the [try] of the torch block (lines 51-57). *)
Definition torch_block (m : torch_module T) (seed : pyint) (deterministic : bool)
  : Py unit :=
  torch_manual_seed m seed ;;
  avail ← torch_cuda_is_available m ;
  (if avail : bool then torch_cuda_manual_seed_all m seed else ret tt) ;;
  (if deterministic
   then assign_cudnn_deterministic true ;; assign_cudnn_benchmark false
   else ret tt).

Definition set_random_seed (seed : option pyint) (deterministic : bool) : Py Z :=
  seed ← match seed with
         | None =>
             bs ← os_urandom 4 ;
             ret (Int (int_from_bytes_little bs))
         | Some s => ret s
         end ;
  text ← pure (str seed) ;
  os_environ_setdefault PYTHONHASHSEED text ;;
  random_seed seed ;;
  match np with
  | Some m => try_except_pass (np_random_seed_call m seed)
  | None => ret tt
  end ;;
  match torch with
  | Some m => try_except_pass (torch_block m seed deterministic)
  | None => ret tt
  end ;;
  ret (int seed).

(** *** Quantities the statements below speak about *)

(** The seed the call works with (lines 31-33): the argument, or four bytes
    of entropy read little-endian. *)
Definition seed_used (seed : option pyint) (w : World) : pyint :=
  match seed with
  | Some s => s
  | None => Int (int_from_bytes_little (map (entropy w) (seq 0 4)))
  end.

(** The first [n] draws of the generator from state [r]. *)
Fixpoint draws (n : nat) (r : R) : list Z :=
  match n with
  | O => []
  | S k => let '(x, r') := rnd_draw random r in x :: draws k r'
  end.

(** Specification side of the comparison with the standard API: the
    generator of a process [w0] that has just executed [random.seed(s)]. *)
Definition freshly_seeded (s : pyint) (w0 : World) : R :=
  random_inst (fst (random_seed s w0)).

(** The torch generators after the calls of lines 51-53 with seed [z],
    started from [t]: seeding stops at the first call that raises. *)
Definition torch_gen_after (m : torch_module T) (z : Z) (t : T) : T :=
  let '(t1, r1) := manual_seed m z t in
  match r1 with
  | Raise _ => t1
  | Return _ =>
      let '(t2, r2) := cuda_is_available m t1 in
      match r2 with
      | Return true => fst (cuda_manual_seed_all m z t2)
      | Return false | Raise _ => t2
      end
  end.

(** What the numpy block (lines 42-46) makes of a world; the guard drops
    the outcome of the call and keeps its effect. *)
Definition numpy_phase (z : pyint) (w : World) : World :=
  match np with
  | Some m => fst (np_random_seed_call m z w)
  | None => w
  end.

(** What the torch block (lines 49-59) makes of a world. *)
Definition torch_phase (z : pyint) (deterministic : bool) (w : World) : World :=
  match torch with
  | Some m => fst (torch_block m z deterministic w)
  | None => w
  end.

(** What lines 31-33 make of a world: four bytes of entropy are gone when
    the seed had to be generated. *)
Definition seed_phase (seed : option pyint) (w : World) : World :=
  match seed with
  | Some _ => w
  | None => set_entropy (fun i => entropy w (4 + i)%nat) w
  end.

(** One of the three torch calls of the block raises [e], leaving the
    generators at [t']. *)
Inductive torch_call_raises (m : torch_module T) (z : Z) (t : T)
  : T -> Exception -> Prop :=
  | raises_in_manual_seed t1 e :
      manual_seed m z t = (t1, Raise e) ->
      torch_call_raises m z t t1 e
  | raises_in_is_available t1 t2 e :
      manual_seed m z t = (t1, Return tt) ->
      cuda_is_available m t1 = (t2, Raise e) ->
      torch_call_raises m z t t2 e
  | raises_in_manual_seed_all t1 t2 t3 e :
      manual_seed m z t = (t1, Return tt) ->
      cuda_is_available m t1 = (t2, Return true) ->
      cuda_manual_seed_all m z t2 = (t3, Raise e) ->
      torch_call_raises m z t t3 e.

End SeedInitializer.

(** ** Stand-ins for the libraries, for concrete runs *)

Module Doubles.

(** A linear congruential generator in place of the Mersenne Twister. *)
Definition lcg : random_module Z := {|
  rnd_seed := fun a => Z.abs a mod 2 ^ 32;
  rnd_draw := fun r => let r' := (1103515245 * r + 12345) mod 2 ^ 31 in (r', r')
|}.

(** A generator that shows the seed it was given: its state is that seed,
    its draws count up from it. *)
Definition recorder : random_module Z := {|
  rnd_seed := fun a => a;
  rnd_draw := fun r => (r, r + 1)
|}.

(** numpy's legacy seeding: the seed must lie in [0, 2^32 - 1], else
    [ValueError]; the state is the seed last accepted. *)
Definition numpy : numpy_module (option Z) := {|
  np_random_seed := fun a n =>
    if (0 <=? a) && (a <=? 2 ^ 32 - 1)
    then (Some a, Return tt)
    else (n, Raise ValueError)
|}.

Record generators : Type := mkGenerators {
  cpu_seed : option Z;
  cuda_seed : option Z;
  has_cuda : bool
}.

Definition torch_seed_ok (a : Z) : bool :=
  (- 2 ^ 63 <=? a) && (a <=? 2 ^ 64 - 1).

(** Faults a CUDA installation can show. *)
Inductive fault : Type :=
  | NoFault
  | QueryFails      (* torch.cuda.is_available() raises *)
  | GpuSeedFails.   (* torch.cuda.manual_seed_all() raises *)

(** torch: a seed outside [-2^63, 2^64 - 1] does not fit the generator and
    raises [RuntimeError]. *)
Definition torch_with (f : fault) : torch_module generators := {|
  manual_seed := fun a g =>
    if torch_seed_ok a
    then (mkGenerators (Some a) (cuda_seed g) (has_cuda g), Return tt)
    else (g, Raise RuntimeError);
  cuda_is_available := fun g =>
    match f with
    | QueryFails => (g, Raise RuntimeError)
    | NoFault | GpuSeedFails => (g, Return (has_cuda g))
    end;
  cuda_manual_seed_all := fun a g =>
    match f with
    | GpuSeedFails => (g, Raise RuntimeError)
    | NoFault | QueryFails =>
        if torch_seed_ok a
        then (mkGenerators (cpu_seed g) (Some a) (has_cuda g), Return tt)
        else (g, Raise RuntimeError)
    end
|}.

Definition torch : torch_module generators := torch_with NoFault.

(** A process: the given environment, an entropy source that hands out
    1, 2, 3, ..., nothing seeded, cudnn at its defaults. *)
Definition byte_of_nat (i : nat) : byte :=
  match Byte.of_N (N.of_nat (i mod 256)) with
  | Some b => b
  | None => x00
  end.

Definition process (env : gmap string string) (cuda : bool)
  : World Z (option Z) generators :=
  mkWorld env (fun i => byte_of_nat (S i)) 0 None
          (mkGenerators None None cuda) false true.

Definition fresh (cuda : bool) : World Z (option Z) generators :=
  process ∅ cuda.

(** The smallest integer of 4301 digits. *)
Definition huge : Z := 10 ^ 4300.

End Doubles.

(** ** The module as a whole (lines 6-14 and 64-67) *)

(** A running interpreter: the globals [set_random_seed] works on, the bytes
    written to standard output so far, and the encoder of [sys.stdout]
    (its encoding under [errors="strict"], with its newline translation):
    the bytes for a text, or nothing when the encoding lacks a character of
    the text. *)
Record Process (R N T : Type) : Type := mkProcess {
  globals : World R N T;
  stdout : string;
  stdout_encode : string -> option string
}.
Arguments mkProcess {R N T}.
Arguments globals {R N T} _.
Arguments stdout {R N T} _.
Arguments stdout_encode {R N T} _ _.

(** [try: import lib / except Exception: lib = None]: the name is bound to
    the module when the import went through, to [None] when it raised. *)
Definition import_or_None {M : Type} (imported : result M) : option M :=
  match imported with
  | Return lib => Some lib
  | Raise _ => None
  end.

Definition newline : string := String (ascii_of_nat 10) "".

(** [sys.stdout.write(text)] *)
Definition stdout_write {R N T : Type} (text : string) (p : Process R N T)
  : Process R N T * result unit :=
  match stdout_encode p text with
  | Some bytes =>
      (mkProcess (globals p) (stdout p +:+ bytes) (stdout_encode p), Return tt)
  | None => (p, Raise UnicodeEncodeError)
  end.

(** [print(line)]: the line is written, then the end of line. *)
Definition print {R N T : Type} (line : string) (p : Process R N T)
  : Process R N T * result unit :=
  match stdout_write line p with
  | (p1, Return _) => stdout_write newline p1
  | (p1, Raise e) => (p1, Raise e)
  end.

(** The f-string of line 67: the fixed text, then [s] formatted as [str]
    does. *)
Definition seed_message (s : Z) : result string :=
  match str (Int s) with
  | Return digits => Return ("사용된 랜덤 시드: " +:+ digits)
  | Raise e => Raise e
  end.

(** Executing the file under the module name [name]: the two guarded
    imports, the [def], and the demo under [if __name__ == "__main__"],
    which calls [set_random_seed(None)] ([deterministic] at its default
    [True]) and prints the seed. *)
Definition new_calc {R N T : Type} (random : random_module R)
    (import_numpy : result (numpy_module N))
    (import_torch : result (torch_module T))
    (name : string) (p : Process R N T) : Process R N T * result unit :=
  let np := import_or_None import_numpy in
  let torch := import_or_None import_torch in
  if String.eqb name "__main__" then
    match set_random_seed random np torch None true (globals p) with
    | (w', Return s) =>
        let p' := mkProcess w' (stdout p) (stdout_encode p) in
        match seed_message s with
        | Return line => print line p'
        | Raise e => (p', Raise e)
        end
    | (w', Raise e) => (mkProcess w' (stdout p) (stdout_encode p), Raise e)
    end
  else (p, Return tt).

(** Two encoders: UTF-8, which takes every text, and ASCII, which takes a
    text only when all of it is below 128. *)
Definition encode_utf_8 (text : string) : option string := Some text.

Fixpoint is_ascii (text : string) : bool :=
  match text with
  | EmptyString => true
  | String c rest => (nat_of_ascii c <? 128)%nat && is_ascii rest
  end.

Definition encode_ascii (text : string) : option string :=
  if is_ascii text then Some text else None.

(** ** Properties *)

Section Contract.
Context {R N T : Type}.
Variable random : random_module R.
Variable np : option (numpy_module N).
Variable torch : option (torch_module T).

(** *** The guard *)

Lemma try_except_pass_returns (body : Py unit) (w : World R N T) :
  snd (try_except_pass body w) = Return tt.
Proof.
  unfold try_except_pass. destruct (body w) as [w' [[]|e]]; reflexivity.
Qed.

Lemma try_except_pass_world (body : Py unit) (w : World R N T) :
  fst (try_except_pass body w) = fst (body w).
Proof.
  unfold try_except_pass. destruct (body w) as [w' [u|e]]; reflexivity.
Qed.

(** *** Built-ins *)

Lemma byte_range (b : byte) : 0 <= Z.of_N (Byte.to_N b) <= 255.
Proof. pose proof (Byte.to_N_bounded b). lia. Qed.

Lemma setdefault_present (k v v0 : string) (d : gmap string string) :
  d !! k = Some v0 -> setdefault k v d = d.
Proof. unfold setdefault. intros ->. reflexivity. Qed.

Lemma setdefault_absent (k v : string) (d : gmap string string) :
  d !! k = None -> setdefault k v d !! k = Some v.
Proof. unfold setdefault. intros ->. apply lookup_insert_eq. Qed.

(** [str] of a plain integer returns exactly below the digit limit, and then
    gives the decimal form. *)
Lemma str_Int_returns (n : Z) :
  Z.abs n < 10 ^ int_max_str_digits -> str (Int n) = Return (decimal n).
Proof.
  intros H. unfold str. apply Z.ltb_lt in H. rewrite H. reflexivity.
Qed.

Lemma str_Int_raises (n : Z) :
  10 ^ int_max_str_digits <= Z.abs n -> str (Int n) = Raise ValueError.
Proof.
  intros H. unfold str. apply Z.ltb_ge in H. rewrite H. reflexivity.
Qed.

Lemma str_Int_inv (n : Z) (text : string) :
  str (Int n) = Return text ->
  Z.abs n < 10 ^ int_max_str_digits /\ text = decimal n.
Proof.
  unfold str. destruct (Z.abs n <? 10 ^ int_max_str_digits) eqn:E.
  - intros [= <-]. apply Z.ltb_lt in E. auto.
  - discriminate.
Qed.

(** Up to 32 digits is well within the limit. *)
Lemma digits_32_below_limit : 10 ^ 32 <= 10 ^ int_max_str_digits.
Proof.
  apply Z.pow_le_mono_r; [lia|]. unfold int_max_str_digits. lia.
Qed.

Lemma fits_below_10_32 (n : Z) :
  Z.abs n < 10 ^ 32 -> Z.abs n < 10 ^ int_max_str_digits.
Proof.
  intros H. eapply Z.lt_le_trans; [exact H|apply digits_32_below_limit].
Qed.

Lemma word32_below_digit_limit : 2 ^ 32 <= 10 ^ int_max_str_digits.
Proof.
  eapply Z.le_trans; [|apply digits_32_below_limit].
  apply Z.leb_le. reflexivity.
Qed.

Lemma seed_from_entropy_range (w : World R N T) :
  0 <= int (seed_used None w) <= 2 ^ 32 - 1.
Proof.
  cbn.
  pose proof (byte_range (entropy w 0%nat)).
  pose proof (byte_range (entropy w 1%nat)).
  pose proof (byte_range (entropy w 2%nat)).
  pose proof (byte_range (entropy w 3%nat)).
  lia.
Qed.

(** A generated seed has at most ten digits: [str] returns on it. *)
Lemma str_generated_seed (w : World R N T) :
  str (seed_used None w) = Return (decimal (int (seed_used None w))).
Proof.
  pose proof (seed_from_entropy_range w) as Hr.
  change (seed_used None w) with (Int (int (seed_used None w))) at 1.
  apply str_Int_returns.
  pose proof word32_below_digit_limit as Hb.
  set (limit := 10 ^ int_max_str_digits) in *.
  set (z := int (seed_used None w)) in *.
  lia.
Qed.

(** *** The call, phase by phase *)

(** If [str(seed)] raises, so does the call, before anything but the
    entropy source was touched; otherwise the call returns [int(seed)]. *)
Lemma set_random_seed_phases
    (seed : option pyint) (deterministic : bool) (w : World R N T) :
  let z := seed_used seed w in
  let w1 := seed_phase seed w in
  set_random_seed random np torch seed deterministic w =
    match str z with
    | Raise e => (w1, Raise e)
    | Return text =>
        let w2 := set_environ (setdefault PYTHONHASHSEED text (environ w1)) w1 in
        let w3 := set_random_inst (rnd_seed random (int z)) w2 in
        (torch_phase torch z deterministic (numpy_phase np z w3), Return (int z))
    end.
Proof.
  intros z w1. subst w1 z.
  unfold set_random_seed, numpy_phase, torch_phase, seed_phase, seed_used.
  unfold mbind, Py_bind, bind, try_except_pass, pure.
  destruct seed as [s|]; cbn [ret os_urandom fst snd].
  all: match goal with |- context [str ?x] => destruct (str x) as [text|e] end;
    [|reflexivity].
  all: destruct np as [m|]; destruct torch as [mt|];
    cbn [os_environ_setdefault random_seed ret].
  all: repeat (match goal with
       | |- context [np_random_seed_call ?m ?z ?w] =>
           destruct (np_random_seed_call m z w) as [? [[]|?]]
       | |- context [torch_block ?m ?z ?d ?w] =>
           destruct (torch_block m z d w) as [? [[]|?]]
       end; cbn [fst snd]).
  all: reflexivity.
Qed.

(** *** What each optional phase touches *)

Lemma numpy_phase_spec (z : pyint) (w : World R N T) :
  numpy_phase np z w =
    set_np_global
      match np with
      | Some m => fst (np_random_seed m (int z) (np_global w))
      | None => np_global w
      end w.
Proof.
  unfold numpy_phase, np_random_seed_call. destruct w; cbn.
  destruct np as [m|]; [|reflexivity].
  destruct (np_random_seed m (int z) _) as [n' r]; reflexivity.
Qed.

(** The torch block, call by call. *)
Lemma torch_block_run
    (m : torch_module T) (z : pyint) (deterministic : bool) (w : World R N T) :
  torch_block m z deterministic w =
    let '(t1, r1) := manual_seed m (int z) (torch_gen w) in
    match r1 with
    | Raise e => (set_torch_gen t1 w, Raise e)
    | Return _ =>
        let '(t2, r2) := cuda_is_available m t1 in
        match r2 with
        | Raise e => (set_torch_gen t2 w, Raise e)
        | Return avail =>
            let '(t3, r3) :=
              if avail then cuda_manual_seed_all m (int z) t2
              else (t2, Return tt) in
            match r3 with
            | Raise e => (set_torch_gen t3 w, Raise e)
            | Return _ =>
                (if deterministic
                 then set_cudnn_benchmark false
                        (set_cudnn_deterministic true (set_torch_gen t3 w))
                 else set_torch_gen t3 w,
                 Return tt)
            end
        end
    end.
Proof.
  unfold torch_block, mbind, Py_bind, bind.
  unfold torch_manual_seed, torch_cuda_is_available, torch_cuda_manual_seed_all.
  destruct (manual_seed m (int z) (torch_gen w)) as [t1 [[]|e1]]; [|reflexivity].
  cbn [torch_gen set_torch_gen].
  destruct (cuda_is_available m t1) as [t2 [avail|e2]]; [|reflexivity].
  destruct avail; cbn [torch_gen set_torch_gen].
  - destruct (cuda_manual_seed_all m (int z) t2) as [t3 [[]|e3]]; [|reflexivity].
    destruct deterministic; reflexivity.
  - destruct deterministic; reflexivity.
Qed.

Lemma torch_phase_frame (z : pyint) (deterministic : bool) (w : World R N T) :
  let w' := torch_phase torch z deterministic w in
  environ w' = environ w /\ entropy w' = entropy w /\
  random_inst w' = random_inst w /\ np_global w' = np_global w.
Proof.
  unfold torch_phase. destruct torch as [m|]; [|cbn; auto].
  rewrite torch_block_run.
  destruct (manual_seed m (int z) (torch_gen w)) as [t1 [[]|e1]]; [|cbn; auto].
  destruct (cuda_is_available m t1) as [t2 [avail|e2]]; [|cbn; auto].
  destruct (if avail then _ else _) as [t3 [[]|e3]]; [|cbn; auto].
  destruct deterministic; cbn; auto.
Qed.

Lemma torch_phase_gen
    (m : torch_module T) (z : pyint) (deterministic : bool) (w : World R N T) :
  torch_gen (torch_phase (Some m) z deterministic w) =
    torch_gen_after m (int z) (torch_gen w).
Proof.
  unfold torch_phase, torch_gen_after. rewrite torch_block_run.
  destruct (manual_seed m (int z) (torch_gen w)) as [t1 [[]|e1]]; [|reflexivity].
  destruct (cuda_is_available m t1) as [t2 [[]|e2]]; [| |reflexivity].
  - destruct (cuda_manual_seed_all m (int z) t2) as [t3 [[]|e3]]; [|reflexivity].
    destruct deterministic; reflexivity.
  - destruct deterministic; reflexivity.
Qed.

(** *** The world a call leaves behind *)

(** When [str(seed)] returns [text]. *)
Lemma set_random_seed_effects
    (seed : option pyint) (deterministic : bool) (w : World R N T)
    (text : string) :
  str (seed_used seed w) = Return text ->
  let z := int (seed_used seed w) in
  let w' := fst (set_random_seed random np torch seed deterministic w) in
  snd (set_random_seed random np torch seed deterministic w) = Return z /\
  environ w' = setdefault PYTHONHASHSEED text (environ w) /\
  entropy w' = entropy (seed_phase seed w) /\
  random_inst w' = rnd_seed random z /\
  np_global w' = match np with
                 | Some m => fst (np_random_seed m z (np_global w))
                 | None => np_global w
                 end /\
  torch_gen w' = match torch with
                 | Some m => torch_gen_after m z (torch_gen w)
                 | None => torch_gen w
                 end.
Proof.
  intros Hstr. cbv zeta. rewrite set_random_seed_phases, Hstr. cbn [fst snd].
  match goal with
  | |- context [torch_phase _ ?z ?d ?w0] =>
      destruct (torch_phase_frame z d w0) as (-> & -> & -> & ->);
      assert (Ht : torch_gen (torch_phase torch z d w0) =
                   match torch with
                   | Some m => torch_gen_after m (int z) (torch_gen w0)
                   | None => torch_gen w0
                   end)
        by (destruct torch; [apply torch_phase_gen|reflexivity]);
      rewrite Ht
  end.
  rewrite numpy_phase_spec. cbn.
  destruct seed; cbn; auto 10.
Qed.

(** The same, as one equation for the whole call. *)
Lemma set_random_seed_returning
    (seed : option pyint) (deterministic : bool) (w : World R N T)
    (text : string) :
  str (seed_used seed w) = Return text ->
  set_random_seed random np torch seed deterministic w =
    (torch_phase torch (seed_used seed w) deterministic
       (numpy_phase np (seed_used seed w)
          (set_random_inst (rnd_seed random (int (seed_used seed w)))
             (set_environ
                (setdefault PYTHONHASHSEED text (environ (seed_phase seed w)))
                (seed_phase seed w)))),
     Return (int (seed_used seed w))).
Proof.
  intros Hstr. rewrite set_random_seed_phases, Hstr. reflexivity.
Qed.

(** When [str(seed)] raises: the seed was given (a generated one is short),
    the exception leaves the call, and the world is as it was. *)
Lemma set_random_seed_raises
    (seed : option pyint) (deterministic : bool) (w : World R N T)
    (e : Exception) :
  str (seed_used seed w) = Raise e ->
  set_random_seed random np torch seed deterministic w = (w, Raise e).
Proof.
  intros Hstr. rewrite set_random_seed_phases, Hstr.
  destruct seed as [s|]; [reflexivity|].
  rewrite str_generated_seed in Hstr. discriminate.
Qed.

(** *** Return value *)

(** C1 (amended). Whenever [str(seed)] returns, which it does when no seed
    is given, for a [bool] and for an integer of at most 4300 digits, the
    call returns an integer and raises nothing, whether or not numpy and
    torch were imported and whatever their calls do (return or raise): each
    exception of an optional library is caught by its guard and dropped. *)
Theorem set_random_seed_never_raises
    (seed : option pyint) (deterministic : bool) (w : World R N T) :
  (forall s, seed = Some s -> exists text, str s = Return text) ->
  (exists z : Z,
     snd (set_random_seed random np torch seed deterministic w) = Return z) /\
  (forall e,
     snd (set_random_seed random np torch seed deterministic w) <> Raise e).
Proof.
  intros Hstr.
  assert (Hret : exists text, str (seed_used seed w) = Return text).
  { destruct seed as [s|].
    - apply Hstr. reflexivity.
    - eexists. apply str_generated_seed. }
  destruct Hret as [text Htext].
  destruct (set_random_seed_effects seed deterministic w text Htext) as (-> & _).
  split; [eexists; reflexivity|]. intros e H. discriminate H.
Qed.

(** C2 (amended). For an explicitly supplied integer seed [n] of at most
    4300 digits, [set_random_seed(n)] returns exactly [n]. *)
Theorem set_random_seed_returns_explicit_seed
    (n : Z) (deterministic : bool) (w : World R N T) :
  Z.abs n < 10 ^ int_max_str_digits ->
  snd (set_random_seed random np torch (Some (Int n)) deterministic w) = Return n.
Proof.
  intros Hn.
  apply (set_random_seed_effects (Some (Int n)) deterministic w (decimal n)).
  apply str_Int_returns, Hn.
Qed.

(** C3. Called without a seed, [set_random_seed] takes exactly four bytes
    from the entropy source (the source afterwards continues at its fifth
    byte), reads them as an unsigned little-endian 32-bit integer, and
    returns that integer, which lies in [0, 2^32 - 1]. *)
Theorem set_random_seed_generates_seed (deterministic : bool) (w : World R N T) :
  let b := fun i => Z.of_N (Byte.to_N (entropy w i)) in
  let z := int_from_bytes_little
             [entropy w 0%nat; entropy w 1%nat; entropy w 2%nat; entropy w 3%nat] in
  (exists w', set_random_seed random np torch None deterministic w = (w', Return z) /\
              forall i, entropy w' i = entropy w (4 + i)%nat) /\
  z = b 0%nat + 2 ^ 8 * b 1%nat + 2 ^ 16 * b 2%nat + 2 ^ 24 * b 3%nat /\
  0 <= z <= 2 ^ 32 - 1.
Proof.
  intros b z.
  assert (Hz : z = b 0%nat + 2 ^ 8 * b 1%nat + 2 ^ 16 * b 2%nat + 2 ^ 24 * b 3%nat).
  { subst z b. cbn [int_from_bytes_little]. lia. }
  destruct (set_random_seed_effects None deterministic w _ (str_generated_seed w))
    as (Hret & _ & Hent & _).
  split; [|split; [exact Hz|]].
  - exists (fst (set_random_seed random np torch None deterministic w)). split.
    + rewrite (surjective_pairing (set_random_seed random np torch None deterministic w)).
      rewrite Hret. reflexivity.
    + intros i. rewrite Hent. reflexivity.
  - apply (seed_from_entropy_range w).
Qed.

(** C9 (amended). The seed's sign is not checked: a negative integer [n] of
    at most 4300 digits is accepted, nothing is raised, the value returned
    is [n] itself and [random] is seeded with it. *)
Theorem negative_seed_accepted (n : Z) (deterministic : bool) (w : World R N T) :
  n < 0 ->
  - 10 ^ int_max_str_digits < n ->
  exists w',
    set_random_seed random np torch (Some (Int n)) deterministic w = (w', Return n) /\
    random_inst w' = rnd_seed random n.
Proof.
  intros Hneg Hn.
  assert (Hstr : str (seed_used (Some (Int n)) w) = Return (decimal n)).
  { apply str_Int_returns.
    set (limit := 10 ^ int_max_str_digits) in *. lia. }
  destruct (set_random_seed_effects (Some (Int n)) deterministic w _ Hstr)
    as (Hret & _ & _ & Hrnd & _).
  exists (fst (set_random_seed random np torch (Some (Int n)) deterministic w)).
  split; [|exact Hrnd].
  rewrite (surjective_pairing (set_random_seed _ _ _ _ _ _)), Hret. reflexivity.
Qed.

(** *** The environment *)

(** C5. If [PYTHONHASHSEED] is already set to [v], the call leaves it at
    [v] whatever the seed; indeed the environment is left as it was. *)
Theorem hashseed_kept_when_set
    (seed : option pyint) (deterministic : bool) (w : World R N T) (v : string) :
  environ w !! PYTHONHASHSEED = Some v ->
  environ (fst (set_random_seed random np torch seed deterministic w))
    !! PYTHONHASHSEED = Some v /\
  environ (fst (set_random_seed random np torch seed deterministic w)) = environ w.
Proof.
  intros Hv.
  destruct (str (seed_used seed w)) as [text|e] eqn:Hstr.
  - destruct (set_random_seed_effects seed deterministic w text Hstr)
      as (_ & -> & _).
    rewrite (setdefault_present _ _ _ _ Hv). auto.
  - rewrite (set_random_seed_raises seed deterministic w e Hstr). auto.
Qed.

(** C6 (amended). If [PYTHONHASHSEED] is unset and [str(seed)] returns, the
    call sets the variable to [str(seed)]: for a generated or plain integer
    seed the decimal form of the value the call returns, for a [bool] the
    name of the constant (while the call returns 1 or 0). *)
Theorem hashseed_set_when_unset
    (seed : option pyint) (deterministic : bool) (w : World R N T)
    (text : string) :
  environ w !! PYTHONHASHSEED = None ->
  str (seed_used seed w) = Return text ->
  exists z w',
    set_random_seed random np torch seed deterministic w = (w', Return z) /\
    z = int (seed_used seed w) /\
    environ w' !! PYTHONHASHSEED = Some text /\
    text = match seed_used seed w with
           | Int _ => decimal z
           | Bool true => "True"
           | Bool false => "False"
           end.
Proof.
  intros Hnone Hstr.
  destruct (set_random_seed_effects seed deterministic w text Hstr)
    as (Hret & Henv & _).
  exists (int (seed_used seed w)),
         (fst (set_random_seed random np torch seed deterministic w)).
  split; [rewrite (surjective_pairing (set_random_seed _ _ _ _ _ _)), Hret;
          reflexivity|].
  split; [reflexivity|]. split.
  - rewrite Henv. apply setdefault_absent, Hnone.
  - destruct (seed_used seed w) as [n|[|]].
    + apply (str_Int_inv n text Hstr).
    + unfold str in Hstr. congruence.
    + unfold str in Hstr. congruence.
Qed.

(** *** The standard generator *)

Lemma draws_ext (n : nat) (r r' : R) : r = r' -> draws random n r = draws random n r'.
Proof. intros ->. reflexivity. Qed.

(** C7 (amended). For an integer seed [n] of at most 4300 digits, the
    process-wide [random] generator is after [set_random_seed(n)] in the
    state of a generator freshly seeded with [n] by [random.seed(n)] (in any
    process [w0]), so the two give the same draws, however many. *)
Theorem random_state_as_freshly_seeded
    (n : Z) (deterministic : bool) (w w0 : World R N T) :
  Z.abs n < 10 ^ int_max_str_digits ->
  random_inst (fst (set_random_seed random np torch (Some (Int n)) deterministic w))
    = freshly_seeded random (Int n) w0 /\
  forall k : nat,
    draws random k
      (random_inst
         (fst (set_random_seed random np torch (Some (Int n)) deterministic w))) =
    draws random k (freshly_seeded random (Int n) w0).
Proof.
  intros Hn.
  assert (H : random_inst
                (fst (set_random_seed random np torch (Some (Int n)) deterministic w))
              = freshly_seeded random (Int n) w0).
  { destruct (set_random_seed_effects (Some (Int n)) deterministic w (decimal n)
                (str_Int_returns n Hn)) as (_ & _ & _ & -> & _).
    reflexivity. }
  split; [exact H|]. intros k. apply draws_ext, H.
Qed.

(** *** Seed propagation *)

(** C4 (amended). Whenever [str(seed)] returns, the value returned is the
    integer value of the seed handed to every subsystem the call reaches:
    [random], numpy's global state when numpy is present, torch's CPU and
    GPU generators when torch is present, and [PYTHONHASHSEED], which
    receives [str(seed)] when it was unset (the decimal form of the returned
    value, or the name of the constant for a [bool]).  The returned value is
    non-negative exactly when no seed was given or the given seed is
    non-negative. *)
Theorem returned_seed_is_applied_seed
    (seed : option pyint) (deterministic : bool) (w : World R N T)
    (text : string) :
  str (seed_used seed w) = Return text ->
  exists z w',
    set_random_seed random np torch seed deterministic w = (w', Return z) /\
    (0 <= z <-> match seed with Some s => 0 <= int s | None => True end) /\
    environ w' = setdefault PYTHONHASHSEED text (environ w) /\
    text = match seed_used seed w with
           | Int _ => decimal z
           | Bool true => "True"
           | Bool false => "False"
           end /\
    random_inst w' = rnd_seed random z /\
    np_global w' = match np with
                   | Some m => fst (np_random_seed m z (np_global w))
                   | None => np_global w
                   end /\
    torch_gen w' = match torch with
                   | Some m => torch_gen_after m z (torch_gen w)
                   | None => torch_gen w
                   end.
Proof.
  intros Hstr.
  exists (int (seed_used seed w)),
         (fst (set_random_seed random np torch seed deterministic w)).
  destruct (set_random_seed_effects seed deterministic w text Hstr)
    as (Hret & He & _ & Hr & Hn & Ht).
  split; [rewrite (surjective_pairing (set_random_seed _ _ _ _ _ _)), Hret;
          reflexivity|].
  split; [|split; [exact He|split; [|auto]]].
  - destruct seed as [s|]; [cbn [seed_used]; tauto|].
    split; [tauto|intros _].
    apply (proj1 (seed_from_entropy_range w)).
  - destruct (seed_used seed w) as [n|[|]].
    + apply (str_Int_inv n text Hstr).
    + unfold str in Hstr. congruence.
    + unfold str in Hstr. congruence.
Qed.

End Contract.

Section TorchPresent.
Context {R N T : Type}.
Variable random : random_module R.
Variable np : option (numpy_module N).
Variable m : torch_module T.

(** Nothing before the torch block touches what torch owns: when the call
    gets as far as the block, the generators and the cudnn flags are
    afterwards what the guarded block makes of those of the initial world. *)
Lemma torch_fields_after_call
    (seed : option pyint) (deterministic : bool) (w : World R N T)
    (text : string) :
  str (seed_used seed w) = Return text ->
  let w' := fst (set_random_seed random np (Some m) seed deterministic w) in
  let wb := fst (torch_block m (seed_used seed w) deterministic w) in
  torch_gen w' = torch_gen wb /\
  cudnn_deterministic w' = cudnn_deterministic wb /\
  cudnn_benchmark w' = cudnn_benchmark wb.
Proof.
  intros Hstr. cbv zeta. rewrite set_random_seed_phases, Hstr.
  cbn [fst]. unfold torch_phase.
  rewrite !torch_block_run, numpy_phase_spec.
  generalize (int (seed_used seed w)). intros z.
  destruct seed as [s|]; cbn [seed_phase];
    cbn [torch_gen set_np_global set_random_inst set_environ set_entropy].
  all: destruct (manual_seed m z (torch_gen w)) as [t1 [[]|e1]]; [|cbn; auto].
  all: destruct (cuda_is_available m t1) as [t2 [avail|e2]]; [|cbn; auto].
  all: destruct (if avail then _ else _) as [t3 [[]|e3]]; [|cbn; auto].
  all: destruct deterministic; cbn; auto.
Qed.

(** C8 (amended). With torch present, when [str(s)] returns (so that the
    block is reached) and none of the three torch calls raises: the CPU
    generator is seeded with [s]; if the availability check answers true,
    all GPU generators are seeded with [s]; and if [deterministic] is true,
    [cudnn.deterministic] ends true and [cudnn.benchmark] ends false
    (otherwise both flags are left alone). *)
Theorem torch_block_without_raise
    (s : pyint) (deterministic : bool) (w : World R N T) (text : string)
    (t1 t2 t3 : T) (avail : bool) :
  str s = Return text ->
  manual_seed m (int s) (torch_gen w) = (t1, Return tt) ->
  cuda_is_available m t1 = (t2, Return avail) ->
  (if avail then cuda_manual_seed_all m (int s) t2 else (t2, Return tt))
    = (t3, Return tt) ->
  let w' := fst (set_random_seed random np (Some m) (Some s) deterministic w) in
  torch_gen w' = t3 /\
  cudnn_deterministic w' = (if deterministic then true else cudnn_deterministic w) /\
  cudnn_benchmark w' = (if deterministic then false else cudnn_benchmark w).
Proof.
  intros Hstr H1 H2 H3 w'. subst w'.
  destruct (torch_fields_after_call (Some s) deterministic w text Hstr)
    as (-> & -> & ->).
  cbn [seed_used]. rewrite torch_block_run, H1, H2, H3.
  destruct deterministic; cbn; auto.
Qed.

(** C10. One guard covers the whole torch block.  If the call reaches the
    block ([str(seed)] returned) and [manual_seed], the availability check
    or [manual_seed_all] raises, the rest of the block is skipped: the
    generators stay as the raising call left them, both cudnn flags keep
    their old values even when [deterministic] is true, and the call still
    returns its seed. *)
Theorem torch_guard_skips_rest
    (seed : option pyint) (deterministic : bool) (w : World R N T)
    (text : string) (t' : T) (e : Exception) :
  str (seed_used seed w) = Return text ->
  torch_call_raises m (int (seed_used seed w)) (torch_gen w) t' e ->
  exists w',
    set_random_seed random np (Some m) seed deterministic w
      = (w', Return (int (seed_used seed w))) /\
    torch_gen w' = t' /\
    cudnn_deterministic w' = cudnn_deterministic w /\
    cudnn_benchmark w' = cudnn_benchmark w.
Proof.
  intros Hstr Hraise.
  exists (fst (set_random_seed random np (Some m) seed deterministic w)).
  split.
  { destruct (set_random_seed_effects random np (Some m) seed deterministic w
                text Hstr) as (Hret & _).
    rewrite (surjective_pairing (set_random_seed _ _ _ _ _ _)), Hret.
    reflexivity. }
  destruct (torch_fields_after_call seed deterministic w text Hstr)
    as (-> & -> & ->).
  rewrite torch_block_run.
  inversion Hraise as [t1 e1 H1 | t1 t2 e2 H1 H2 | t1 t2 t3 e3 H1 H2 H3]; subst.
  - rewrite H1. cbn. auto.
  - rewrite H1, H2. cbn. auto.
  - rewrite H1, H2, H3. cbn. auto.
Qed.

End TorchPresent.

(** ** Concrete runs *)

Section Runs.
Import Doubles.

(** *** [str] at concrete integers *)

Lemma str_small (n : Z) : Z.abs n < 10 ^ 32 -> str (Int n) = Return (decimal n).
Proof. intros H. apply str_Int_returns, fits_below_10_32, H. Qed.

Example str_42 : str (Int 42) = Return "42".
Proof. apply (str_small 42). reflexivity. Qed.

Example str_minus_5 : str (Int (-5)) = Return "-5".
Proof. apply (str_small (-5)). reflexivity. Qed.

Example str_0 : str (Int 0) = Return "0".
Proof. apply (str_small 0). reflexivity. Qed.

Example str_1 : str (Int 1) = Return "1".
Proof. apply (str_small 1). reflexivity. Qed.

Lemma huge_positive : 0 < huge.
Proof. unfold huge. apply Z.pow_pos_nonneg; lia. Qed.

Example str_huge : str (Int huge) = Raise ValueError.
Proof.
  apply str_Int_raises.
  rewrite Z.abs_eq by (apply Z.lt_le_incl, huge_positive).
  unfold huge, int_max_str_digits. apply Z.le_refl.
Qed.

Example str_minus_huge : str (Int (- huge)) = Raise ValueError.
Proof.
  apply str_Int_raises.
  rewrite Z.abs_opp, Z.abs_eq by (apply Z.lt_le_incl, huge_positive).
  unfold huge, int_max_str_digits. apply Z.le_refl.
Qed.

Example from_bytes_1234 :
  int_from_bytes_little [x01; x02; x03; x04] = 67305985.
Proof. reflexivity. Qed.

(** *** Whole calls *)

Example run_42 :
  let w' := fst (set_random_seed lcg (Some numpy) (Some torch) (Some (Int 42)) true (fresh true)) in
  snd (set_random_seed lcg (Some numpy) (Some torch) (Some (Int 42)) true (fresh true)) = Return 42 /\
  environ w' !! PYTHONHASHSEED = Some "42" /\
  np_global w' = Some 42 /\
  torch_gen w' = mkGenerators (Some 42) (Some 42) true /\
  cudnn_deterministic w' = true /\ cudnn_benchmark w' = false.
Proof.
  cbv zeta.
  rewrite (set_random_seed_returning lcg (Some numpy) (Some torch) (Some (Int 42))
             true (fresh true) "42" str_42).
  vm_compute. auto 10.
Qed.

Example run_without_seed :
  snd (set_random_seed lcg (Some numpy) (Some torch) None true (fresh false)) = Return 67305985.
Proof.
  rewrite (set_random_seed_returning lcg (Some numpy) (Some torch) None true
             (fresh false) _ (str_generated_seed (fresh false))).
  reflexivity.
Qed.

(** C1, as stated, fails: an integer of 4301 digits is a seed for which the
    call raises [ValueError] (from [str(seed)] on line 36), having seeded
    nothing. *)
Lemma huge_seed_raises :
  set_random_seed lcg (Some numpy) (Some torch) (Some (Int huge)) true (fresh true)
    = (fresh true, Raise ValueError).
Proof. apply set_random_seed_raises. exact str_huge. Qed.

Lemma set_random_seed_never_raises_witness :
  (exists text, str (Int 42) = Return text) /\
  (exists z : Z,
     snd (set_random_seed lcg (Some numpy) (Some torch) (Some (Int 42)) true (fresh true))
       = Return z) /\
  (forall e,
     snd (set_random_seed lcg (Some numpy) (Some torch) (Some (Int 42)) true (fresh true))
       <> Raise e).
Proof.
  split; [exists "42"; exact str_42|].
  apply (set_random_seed_never_raises lcg (Some numpy) (Some torch)
           (Some (Int 42)) true (fresh true)).
  intros s [= <-]. exists "42". exact str_42.
Defined.

(** C2, as stated, fails: with the seed [huge] the call does not return
    the seed, it raises. *)
Lemma huge_seed_is_not_returned :
  snd (set_random_seed lcg None None (Some (Int huge)) false (fresh false))
    <> Return huge.
Proof.
  rewrite (set_random_seed_raises lcg None None (Some (Int huge)) false
             (fresh false) ValueError str_huge).
  discriminate.
Qed.

Lemma set_random_seed_returns_explicit_seed_witness :
  Z.abs 42 < 10 ^ int_max_str_digits /\
  snd (set_random_seed lcg (Some numpy) (Some torch) (Some (Int 42)) true (fresh true))
    = Return 42.
Proof.
  assert (H : Z.abs 42 < 10 ^ int_max_str_digits)
    by (apply fits_below_10_32; reflexivity).
  split; [exact H|].
  apply (set_random_seed_returns_explicit_seed lcg (Some numpy) (Some torch)
           42 true (fresh true) H).
Defined.

(** C9, as stated, fails: the negative integer [- huge] is not accepted,
    the call raises [ValueError]. *)
Lemma negative_huge_seed_raises :
  - huge < 0 /\
  snd (set_random_seed lcg (Some numpy) (Some torch) (Some (Int (- huge))) true (fresh true))
    = Raise ValueError.
Proof.
  split.
  - apply Z.opp_neg_pos, huge_positive.
  - rewrite (set_random_seed_raises lcg (Some numpy) (Some torch)
               (Some (Int (- huge))) true (fresh true) ValueError str_minus_huge).
    reflexivity.
Qed.

Lemma negative_seed_accepted_witness :
  -5 < 0 /\ - 10 ^ int_max_str_digits < -5 /\
  exists w',
    set_random_seed lcg (Some numpy) (Some torch) (Some (Int (-5))) true (fresh true)
      = (w', Return (-5)) /\
    random_inst w' = rnd_seed lcg (-5).
Proof.
  assert (H : - 10 ^ int_max_str_digits < -5).
  { pose proof (fits_below_10_32 5 eq_refl) as H5.
    change (Z.abs 5) with 5 in H5.
    set (limit := 10 ^ int_max_str_digits) in *. lia. }
  split; [lia|]. split; [exact H|].
  apply (negative_seed_accepted lcg (Some numpy) (Some torch) (-5) true (fresh true));
    [lia|exact H].
Defined.

Lemma hashseed_kept_when_set_witness :
  let w := process {[ PYTHONHASHSEED := "0" ]} true in
  environ w !! PYTHONHASHSEED = Some "0" /\
  environ (fst (set_random_seed lcg (Some numpy) (Some torch) (Some (Int 42)) true w))
    !! PYTHONHASHSEED = Some "0".
Proof.
  intros w. split; [vm_compute; reflexivity|].
  apply (hashseed_kept_when_set lcg (Some numpy) (Some torch) (Some (Int 42)) true w "0").
  vm_compute; reflexivity.
Defined.

(** C6, as stated, fails twice over.  With the seed [huge] the call raises
    and the variable stays unset.  With the seed [True] the call returns 1
    and the variable holds "True", not the string form of 1. *)
Lemma hashseed_is_not_str_of_returned_value :
  environ (fresh true) !! PYTHONHASHSEED = None /\
  (let r := set_random_seed lcg (Some numpy) (Some torch)
              (Some (Int huge)) true (fresh true) in
   snd r = Raise ValueError /\ environ (fst r) !! PYTHONHASHSEED = None) /\
  (let r := set_random_seed lcg (Some numpy) (Some torch)
              (Some (Bool true)) true (fresh true) in
   snd r = Return 1 /\ environ (fst r) !! PYTHONHASHSEED = Some "True" /\
   decimal 1 = "1" /\ "True" <> decimal 1).
Proof.
  split; [reflexivity|]. split.
  - cbv zeta. rewrite (set_random_seed_raises lcg (Some numpy) (Some torch)
               (Some (Int huge)) true (fresh true) ValueError str_huge). split; reflexivity.
  - cbv zeta.
    rewrite (set_random_seed_returning lcg (Some numpy) (Some torch)
               (Some (Bool true)) true (fresh true) "True" eq_refl).
    vm_compute. repeat split; discriminate.
Qed.

Lemma hashseed_set_when_unset_witness :
  environ (fresh true) !! PYTHONHASHSEED = None /\
  str (Int 42) = Return "42" /\
  exists z w',
    set_random_seed lcg (Some numpy) (Some torch) (Some (Int 42)) true (fresh true)
      = (w', Return z) /\
    z = 42 /\
    environ w' !! PYTHONHASHSEED = Some "42" /\
    "42" = decimal z.
Proof.
  split; [reflexivity|]. split; [exact str_42|].
  apply (hashseed_set_when_unset lcg (Some numpy) (Some torch) (Some (Int 42))
           true (fresh true) "42"); [reflexivity|exact str_42].
Defined.

End Runs.

Section PropagationRuns.
Import Doubles.

(** C4, as stated, fails: a negative seed is returned as it is. *)
Lemma returned_seed_may_be_negative :
  snd (set_random_seed lcg (Some numpy) (Some torch) (Some (Int (-5))) true (fresh true))
    = Return (-5) /\ ~ 0 <= -5.
Proof.
  split; [|lia].
  rewrite (set_random_seed_returning lcg (Some numpy) (Some torch) (Some (Int (-5)))
             true (fresh true) "-5" str_minus_5).
  reflexivity.
Qed.

Lemma returned_seed_is_applied_seed_witness :
  str (Int 42) = Return "42" /\
  exists z w',
    set_random_seed lcg (Some numpy) (Some torch) (Some (Int 42)) true (fresh true)
      = (w', Return z) /\
    (0 <= z <-> 0 <= 42) /\
    environ w' = setdefault PYTHONHASHSEED "42" ∅ /\
    "42" = decimal z /\
    random_inst w' = rnd_seed lcg z /\
    np_global w' = fst (np_random_seed numpy z None) /\
    torch_gen w' = torch_gen_after torch z (mkGenerators None None true).
Proof.
  split; [exact str_42|].
  apply (returned_seed_is_applied_seed lcg (Some numpy) (Some torch)
           (Some (Int 42)) true (fresh true) "42" str_42).
Defined.

(** C7, as stated, fails: in a process whose generator was seeded with 7,
    [set_random_seed(huge)] raises before it gets to [random.seed], so the
    generator stays in the state of seed 7, which is not the state
    [random.seed(huge)] installs. *)
Lemma huge_seed_leaves_generator :
  let w7 := set_random_inst (rnd_seed recorder 7) (fresh true) in
  let r := set_random_seed recorder (Some numpy) (Some torch) (Some (Int huge))
             true w7 in
  snd r = Raise ValueError /\
  random_inst (fst r) = rnd_seed recorder 7 /\
  random_inst (fst r) <> freshly_seeded recorder (Int huge) (fresh true).
Proof.
  intros w7 r. subst r.
  rewrite (set_random_seed_raises recorder (Some numpy) (Some torch)
             (Some (Int huge)) true w7 ValueError str_huge).
  split; [reflexivity|]. split; [reflexivity|].
  change (7 <> huge). intros H.
  pose proof huge_positive as Hp.
  assert (Hb : 2 ^ 32 <= huge).
  { unfold huge. change 4300 with int_max_str_digits.
    apply word32_below_digit_limit. }
  generalize dependent huge. intros h. lia.
Qed.

Lemma random_state_as_freshly_seeded_witness :
  Z.abs 42 < 10 ^ int_max_str_digits /\
  random_inst (fst (set_random_seed lcg (Some numpy) (Some torch) (Some (Int 42)) true
                      (fresh true)))
    = freshly_seeded lcg (Int 42) (fresh false) /\
  forall k : nat,
    draws lcg k
      (random_inst (fst (set_random_seed lcg (Some numpy) (Some torch) (Some (Int 42))
                           true (fresh true)))) =
    draws lcg k (freshly_seeded lcg (Int 42) (fresh false)).
Proof.
  assert (H : Z.abs 42 < 10 ^ int_max_str_digits)
    by (apply fits_below_10_32; reflexivity).
  split; [exact H|].
  apply (random_state_as_freshly_seeded lcg (Some numpy) (Some torch) 42 true
           (fresh true) (fresh false) H).
Defined.

Example str_2_70 : str (Int (2 ^ 70)) = Return "1180591620717411303424".
Proof. apply (str_small (2 ^ 70)). reflexivity. Qed.

(** C8, as stated, fails: torch is present, a GPU is available and
    [deterministic] is true, yet with the seed [2^70] (which
    [torch.manual_seed] rejects) no generator is seeded and the cudnn flags
    keep their defaults. *)
Lemma deterministic_flags_skipped_on_overflow :
  let w := fresh true in
  let w' := fst (set_random_seed lcg (Some numpy) (Some torch) (Some (Int (2 ^ 70))) true w) in
  has_cuda (torch_gen w) = true /\
  cpu_seed (torch_gen w') = None /\
  cuda_seed (torch_gen w') = None /\
  cudnn_deterministic w' = false /\
  cudnn_benchmark w' = true.
Proof.
  cbv zeta.
  rewrite (set_random_seed_returning lcg (Some numpy) (Some torch)
             (Some (Int (2 ^ 70))) true (fresh true) _ str_2_70).
  vm_compute. auto 10.
Qed.

Lemma torch_block_without_raise_witness :
  let w := fresh true in
  let w' := fst (set_random_seed lcg (Some numpy) (Some torch) (Some (Int 42)) true w) in
  torch_gen w' = mkGenerators (Some 42) (Some 42) true /\
  cudnn_deterministic w' = true /\
  cudnn_benchmark w' = false.
Proof.
  apply (torch_block_without_raise lcg (Some numpy) torch (Int 42) true (fresh true)
           "42"
           (mkGenerators (Some 42) None true)
           (mkGenerators (Some 42) None true)
           (mkGenerators (Some 42) (Some 42) true) true str_42);
    reflexivity.
Defined.

Lemma torch_guard_skips_rest_witness :
  let w := fresh true in
  (exists w', set_random_seed lcg (Some numpy) (Some torch) (Some (Int (2 ^ 70))) true w
                = (w', Return (2 ^ 70)) /\
              torch_gen w' = mkGenerators None None true /\
              cudnn_deterministic w' = false /\ cudnn_benchmark w' = true) /\
  (exists w', set_random_seed lcg (Some numpy) (Some (torch_with QueryFails))
                (Some (Int 42)) true w = (w', Return 42) /\
              torch_gen w' = mkGenerators (Some 42) None true /\
              cudnn_deterministic w' = false /\ cudnn_benchmark w' = true) /\
  (exists w', set_random_seed lcg (Some numpy) (Some (torch_with GpuSeedFails))
                None true w = (w', Return 67305985) /\
              torch_gen w' = mkGenerators (Some 67305985) None true /\
              cudnn_deterministic w' = false /\ cudnn_benchmark w' = true).
Proof.
  intros w. split; [|split].
  - apply (torch_guard_skips_rest lcg (Some numpy) torch (Some (Int (2 ^ 70))) true w
             "1180591620717411303424" (mkGenerators None None true) RuntimeError
             str_2_70).
    apply raises_in_manual_seed. reflexivity.
  - apply (torch_guard_skips_rest lcg (Some numpy) (torch_with QueryFails)
             (Some (Int 42)) true w "42" (mkGenerators (Some 42) None true)
             RuntimeError str_42).
    eapply raises_in_is_available; reflexivity.
  - apply (torch_guard_skips_rest lcg (Some numpy) (torch_with GpuSeedFails)
             None true w _ (mkGenerators (Some 67305985) None true)
             RuntimeError (str_generated_seed w)).
    eapply raises_in_manual_seed_all; reflexivity.
Defined.

End PropagationRuns.

(** ** Further properties of [set_random_seed] *)

Section Frame.
Context {R N T : Type}.
Variable random : random_module R.
Variable np : option (numpy_module N).
Variable torch : option (torch_module T).

(** *** Helpers *)

Lemma setdefault_lookup_ne (k k' v : string) (d : gmap string string) :
  k' <> k -> setdefault k v d !! k' = d !! k'.
Proof.
  intros Hne. unfold setdefault.
  destruct (d !! k); [reflexivity|].
  apply lookup_insert_ne. congruence.
Qed.

Lemma setdefault_is_Some (k v : string) (d : gmap string string) :
  exists v', setdefault k v d !! k = Some v'.
Proof.
  destruct (d !! k) as [v0|] eqn:Hk.
  - exists v0. rewrite (setdefault_present _ _ _ _ Hk). exact Hk.
  - exists v. apply setdefault_absent, Hk.
Qed.

Lemma decimal_inj (a b : Z) : decimal a = decimal b -> a = b.
Proof.
  unfold decimal. intros H.
  assert (Hnn : forall z, Z.to_int z <> Decimal.Pos Decimal.Nil /\
                          Z.to_int z <> Decimal.Neg Decimal.Nil).
  { intros [|p|p]; cbn; split; try discriminate;
      intros [= Hp]; exact (DecimalPos.Unsigned.to_uint_nonnil p Hp). }
  apply DecimalZ.to_int_inj.
  assert (Hs : Some (Z.to_int a) = Some (Z.to_int b)).
  { rewrite <- (NilZero.isi (Z.to_int a)) by apply Hnn.
    rewrite <- (NilZero.isi (Z.to_int b)) by apply Hnn.
    rewrite H. reflexivity. }
  congruence.
Qed.

Lemma to_N_inj (x y : byte) : Byte.to_N x = Byte.to_N y -> x = y.
Proof.
  intros H. pose proof (Byte.of_to_N x) as Hx. rewrite H, Byte.of_to_N in Hx.
  congruence.
Qed.

Lemma seed_used_None (w : World R N T) :
  int (seed_used None w) =
    int_from_bytes_little
      [entropy w 0%nat; entropy w 1%nat; entropy w 2%nat; entropy w 3%nat].
Proof. reflexivity. Qed.

(** Once [PYTHONHASHSEED] is set, no call changes the environment. *)
Lemma hashseed_environment_fixed
    (seed : option pyint) (deterministic : bool) (w : World R N T) (v : string) :
  environ w !! PYTHONHASHSEED = Some v ->
  environ (fst (set_random_seed random np torch seed deterministic w)) = environ w.
Proof.
  intros Hv.
  destruct (str (seed_used seed w)) as [text|e] eqn:Hstr.
  - destruct (set_random_seed_effects random np torch seed deterministic w text Hstr)
      as (_ & -> & _).
    apply (setdefault_present _ _ _ _ Hv).
  - rewrite (set_random_seed_raises random np torch seed deterministic w e Hstr).
    reflexivity.
Qed.

(** The cudnn flags after a call: untouched, or forced to
    (deterministic, no benchmark) by a torch block that ran to its end. *)
Lemma cudnn_flags_after_call
    (seed : option pyint) (deterministic : bool) (w : World R N T) :
  let w' := fst (set_random_seed random np torch seed deterministic w) in
  (cudnn_deterministic w' = cudnn_deterministic w /\
   cudnn_benchmark w' = cudnn_benchmark w) \/
  (deterministic = true /\ torch <> None /\
   cudnn_deterministic w' = true /\ cudnn_benchmark w' = false).
Proof.
  cbv zeta.
  destruct (str (seed_used seed w)) as [text|e] eqn:Hstr.
  2:{ rewrite (set_random_seed_raises random np torch seed deterministic w e Hstr).
      left. auto. }
  rewrite set_random_seed_phases, Hstr. cbn [fst].
  unfold torch_phase. destruct torch as [m|].
  - rewrite torch_block_run, numpy_phase_spec.
    generalize (int (seed_used seed w)). intros z.
    destruct seed as [s|]; cbn [seed_phase];
      cbn [torch_gen set_np_global set_random_inst set_environ set_entropy].
    all: destruct (manual_seed m z (torch_gen w)) as [t1 [[]|e1]]; [|cbn; auto].
    all: destruct (cuda_is_available m t1) as [t2 [avail|e2]]; [|cbn; auto].
    all: destruct (if avail then _ else _) as [t3 [[]|e3]]; [|cbn; auto].
    all: destruct deterministic; cbn; auto.
    all: right; repeat split; congruence.
  - left. rewrite numpy_phase_spec. destruct seed; cbn; auto.
Qed.

(** *** What a call leaves alone *)

(** X1. No environment variable other than [PYTHONHASHSEED] is created,
    changed or removed. *)
Theorem other_variables_untouched
    (seed : option pyint) (deterministic : bool) (w : World R N T) (k : string) :
  k <> PYTHONHASHSEED ->
  environ (fst (set_random_seed random np torch seed deterministic w)) !! k
    = environ w !! k.
Proof.
  intros Hk.
  destruct (str (seed_used seed w)) as [text|e] eqn:Hstr.
  - destruct (set_random_seed_effects random np torch seed deterministic w text Hstr)
      as (_ & -> & _).
    apply setdefault_lookup_ne, Hk.
  - rewrite (set_random_seed_raises random np torch seed deterministic w e Hstr).
    reflexivity.
Qed.

(** X2. With an explicit seed [os.urandom] is not called: the entropy source
    hands out afterwards what it would have handed out before. *)
Theorem explicit_seed_reads_no_entropy
    (s : pyint) (deterministic : bool) (w : World R N T) (i : nat) :
  entropy (fst (set_random_seed random np torch (Some s) deterministic w)) i
    = entropy w i.
Proof.
  destruct (str (seed_used (Some s) w)) as [text|e] eqn:Hstr.
  - destruct (set_random_seed_effects random np torch (Some s) deterministic w
                text Hstr) as (_ & _ & -> & _).
    reflexivity.
  - rewrite (set_random_seed_raises random np torch (Some s) deterministic w e Hstr).
    reflexivity.
Qed.

(** X3. The cudnn flags are never loosened.  After a call they are either
    exactly as before, or [deterministic = True] and [benchmark = False];
    the latter only when torch is present and [deterministic] was requested.
    In particular a call with [deterministic=False] changes neither flag,
    whatever torch does. *)
Theorem cudnn_flags_untouched_or_deterministic
    (seed : option pyint) (deterministic : bool) (w : World R N T) :
  let w' := fst (set_random_seed random np torch seed deterministic w) in
  ((cudnn_deterministic w' = cudnn_deterministic w /\
    cudnn_benchmark w' = cudnn_benchmark w) \/
   (deterministic = true /\ torch <> None /\
    cudnn_deterministic w' = true /\ cudnn_benchmark w' = false)) /\
  (deterministic = false ->
   cudnn_deterministic w' = cudnn_deterministic w /\
   cudnn_benchmark w' = cudnn_benchmark w).
Proof.
  cbv zeta. split.
  - apply cudnn_flags_after_call.
  - intros Hd.
    destruct (cudnn_flags_after_call seed deterministic w) as [H|(Ht & _)].
    + exact H.
    + congruence.
Qed.

End Frame.

Section Composition.
Context {R N T : Type}.
Variable random : random_module R.
Variable np : option (numpy_module N).
Variable torch : option (torch_module T).

(** X4. With neither numpy nor torch imported, a call leaves numpy's state,
    torch's generators and both cudnn flags exactly as they were, even with
    [deterministic=True]. *)
Theorem absent_libraries_untouched
    (seed : option pyint) (deterministic : bool) (w : World R N T) :
  let w' := fst (set_random_seed random None None seed deterministic w) in
  np_global w' = np_global w /\ torch_gen w' = torch_gen w /\
  cudnn_deterministic w' = cudnn_deterministic w /\
  cudnn_benchmark w' = cudnn_benchmark w.
Proof.
  cbv zeta.
  destruct (cudnn_flags_after_call random (@None (numpy_module N))
              (@None (torch_module T)) seed deterministic w)
    as [[Hd Hb]|(_ & Habs & _)]; [|congruence].
  destruct (str (seed_used seed w)) as [text|e] eqn:Hstr.
  - destruct (set_random_seed_effects random (@None (numpy_module N))
                (@None (torch_module T)) seed deterministic w text Hstr)
      as (_ & _ & _ & _ & Hn & Ht).
    auto.
  - rewrite (set_random_seed_raises random None None seed deterministic w e Hstr).
    auto.
Qed.

(** X5. After a first call that returned, a further call, with whatever
    seed and whether it returns or raises, leaves the whole environment as
    the first call left it: [PYTHONHASHSEED] keeps the value it had after
    the first call. *)
Theorem second_call_keeps_environment
    (seed1 seed2 : option pyint) (d1 d2 : bool) (w : World R N T)
    (text1 : string) :
  str (seed_used seed1 w) = Return text1 ->
  let w1 := fst (set_random_seed random np torch seed1 d1 w) in
  let w2 := fst (set_random_seed random np torch seed2 d2 w1) in
  environ w2 = environ w1.
Proof.
  intros Hstr1 w1 w2. subst w2.
  assert (Hset : exists v, environ w1 !! PYTHONHASHSEED = Some v).
  { subst w1.
    destruct (set_random_seed_effects random np torch seed1 d1 w text1 Hstr1)
      as (_ & -> & _).
    apply setdefault_is_Some. }
  destruct Hset as [v Hv].
  apply (hashseed_environment_fixed random np torch seed2 d2 w1 v Hv).
Qed.

(** X6. Two calls in a row with seeds for which [str] returns, starting
    with [PYTHONHASHSEED] unset: the variable carries the first seed, the
    [random] generator the second, and the second call returns the second
    seed. *)
Theorem first_seed_in_environment_last_seed_in_generator
    (s1 s2 : pyint) (d1 d2 : bool) (w : World R N T) (text1 text2 : string) :
  environ w !! PYTHONHASHSEED = None ->
  str s1 = Return text1 ->
  str s2 = Return text2 ->
  let w1 := fst (set_random_seed random np torch (Some s1) d1 w) in
  let r2 := set_random_seed random np torch (Some s2) d2 w1 in
  snd r2 = Return (int s2) /\
  environ (fst r2) !! PYTHONHASHSEED = Some text1 /\
  random_inst (fst r2) = rnd_seed random (int s2).
Proof.
  intros Hnone H1 H2 w1 r2. subst r2.
  destruct (set_random_seed_effects random np torch (Some s2) d2 w1 text2 H2)
    as (Hret & Henv & _ & Hrnd & _).
  split; [exact Hret|]. split; [|exact Hrnd].
  assert (Hw1 : environ w1 !! PYTHONHASHSEED = Some text1).
  { subst w1.
    destruct (set_random_seed_effects random np torch (Some s1) d1 w text1 H1)
      as (_ & -> & _).
    apply setdefault_absent, Hnone. }
  rewrite Henv, (setdefault_present _ _ _ _ Hw1). exact Hw1.
Qed.

(** X7. A seed generated by a call without argument reproduces the run:
    passing the returned value back, in any process, puts the [random]
    generator in the state the generating call left, so the draws agree. *)
Theorem generated_seed_reproduces
    (d1 d2 : bool) (w w2 : World R N T) :
  exists z,
    snd (set_random_seed random np torch None d1 w) = Return z /\
    random_inst (fst (set_random_seed random np torch (Some (Int z)) d2 w2)) =
      random_inst (fst (set_random_seed random np torch None d1 w)) /\
    forall n : nat,
      draws random n
        (random_inst (fst (set_random_seed random np torch (Some (Int z)) d2 w2))) =
      draws random n
        (random_inst (fst (set_random_seed random np torch None d1 w))).
Proof.
  exists (int (seed_used None w)).
  destruct (set_random_seed_effects random np torch None d1 w _
              (str_generated_seed w)) as (Hret & _ & _ & Hrnd & _).
  assert (Hstr : str (seed_used (Some (Int (int (seed_used None w)))) w2)
                 = Return (decimal (int (seed_used None w)))).
  { apply (str_generated_seed w). }
  destruct (set_random_seed_effects random np torch
              (Some (Int (int (seed_used None w)))) d2 w2 _ Hstr)
    as (_ & _ & _ & Hrnd2 & _).
  assert (Hst :
    random_inst (fst (set_random_seed random np torch
                        (Some (Int (int (seed_used None w)))) d2 w2)) =
    random_inst (fst (set_random_seed random np torch None d1 w))).
  { rewrite Hrnd, Hrnd2. reflexivity. }
  split; [exact Hret|].
  split; [exact Hst|]. intros n. rewrite Hst. reflexivity.
Qed.

(** X8. Two calls without argument in a row draw on fresh entropy: the
    second seed is read from bytes 4 to 7 of the source, the bytes after
    those the first call consumed. *)
Theorem consecutive_generated_seeds_use_fresh_bytes
    (d1 d2 : bool) (w : World R N T) :
  let w1 := fst (set_random_seed random np torch None d1 w) in
  snd (set_random_seed random np torch None d2 w1) =
    Return (int_from_bytes_little
              [entropy w 4%nat; entropy w 5%nat; entropy w 6%nat; entropy w 7%nat]).
Proof.
  intros w1.
  destruct (set_random_seed_effects random np torch None d2 w1 _
              (str_generated_seed w1)) as (-> & _).
  rewrite seed_used_None. subst w1.
  destruct (set_random_seed_effects random np torch None d1 w _
              (str_generated_seed w)) as (_ & _ & -> & _).
  reflexivity.
Qed.

End Composition.

Section Identification.
Context {R N T : Type}.
Variable random : random_module R.
Variable np : option (numpy_module N).
Variable torch : option (torch_module T).

(** X9. The value left in [PYTHONHASHSEED] identifies the seed: if two calls
    with integer seeds of at most 4300 digits, each starting with the
    variable unset, leave the same value, the seeds are equal. *)
Theorem hashseed_identifies_seed
    (n1 n2 : Z) (d1 d2 : bool) (w1 w2 : World R N T) :
  Z.abs n1 < 10 ^ int_max_str_digits ->
  Z.abs n2 < 10 ^ int_max_str_digits ->
  environ w1 !! PYTHONHASHSEED = None ->
  environ w2 !! PYTHONHASHSEED = None ->
  environ (fst (set_random_seed random np torch (Some (Int n1)) d1 w1))
    !! PYTHONHASHSEED
  = environ (fst (set_random_seed random np torch (Some (Int n2)) d2 w2))
      !! PYTHONHASHSEED ->
  n1 = n2.
Proof.
  intros B1 B2 H1 H2.
  destruct (set_random_seed_effects random np torch (Some (Int n1)) d1 w1 _
              (str_Int_returns n1 B1)) as (_ & -> & _).
  destruct (set_random_seed_effects random np torch (Some (Int n2)) d2 w2 _
              (str_Int_returns n2 B2)) as (_ & -> & _).
  rewrite (setdefault_absent _ _ _ H1), (setdefault_absent _ _ _ H2).
  intros [= Hs]. apply decimal_inj, Hs.
Qed.

(** X10. A generated seed carries the four bytes it was read from, no more
    and no less: two calls without argument return the same seed exactly
    when their entropy sources agree on the first four bytes. *)
Theorem generated_seed_iff_first_four_bytes
    (d1 d2 : bool) (w1 w2 : World R N T) :
  snd (set_random_seed random np torch None d1 w1)
    = snd (set_random_seed random np torch None d2 w2)
  <-> (forall i : nat, (i < 4)%nat -> entropy w1 i = entropy w2 i).
Proof.
  destruct (set_random_seed_effects random np torch None d1 w1 _
              (str_generated_seed w1)) as (-> & _).
  destruct (set_random_seed_effects random np torch None d2 w2 _
              (str_generated_seed w2)) as (-> & _).
  rewrite !seed_used_None.
  split.
  - intros [= H]. cbn [int_from_bytes_little] in H.
    pose proof (byte_range (entropy w1 0%nat)).
    pose proof (byte_range (entropy w1 1%nat)).
    pose proof (byte_range (entropy w1 2%nat)).
    pose proof (byte_range (entropy w1 3%nat)).
    pose proof (byte_range (entropy w2 0%nat)).
    pose proof (byte_range (entropy w2 1%nat)).
    pose proof (byte_range (entropy w2 2%nat)).
    pose proof (byte_range (entropy w2 3%nat)).
    assert (E0 : Byte.to_N (entropy w1 0%nat) = Byte.to_N (entropy w2 0%nat)) by lia.
    assert (E1 : Byte.to_N (entropy w1 1%nat) = Byte.to_N (entropy w2 1%nat)) by lia.
    assert (E2 : Byte.to_N (entropy w1 2%nat) = Byte.to_N (entropy w2 2%nat)) by lia.
    assert (E3 : Byte.to_N (entropy w1 3%nat) = Byte.to_N (entropy w2 3%nat)) by lia.
    intros i Hi.
    destruct i as [|[|[|[|i]]]]; [apply to_N_inj; assumption ..|lia].
  - intros H.
    rewrite (H 0%nat), (H 1%nat), (H 2%nat), (H 3%nat) by lia. reflexivity.
Qed.

End Identification.

(** ** Independence *)

Section Independence.
Context {R N T : Type}.
Variable random : random_module R.

(** What a call does outside the libraries' own state depends on the seed
    and the world alone. *)
Lemma core_state_after_call
    (np : option (numpy_module N)) (torch : option (torch_module T))
    (seed : option pyint) (d : bool) (w : World R N T) :
  let a := set_random_seed random np torch seed d w in
  let b := set_random_seed random None None seed true w in
  snd a = snd b /\
  environ (fst a) = environ (fst b) /\
  entropy (fst a) = entropy (fst b) /\
  random_inst (fst a) = random_inst (fst b).
Proof.
  cbv zeta.
  destruct (str (seed_used seed w)) as [text|e] eqn:Hstr.
  - destruct (set_random_seed_effects random np torch seed d w text Hstr)
      as (-> & -> & -> & -> & _).
    destruct (set_random_seed_effects random (@None (numpy_module N))
                (@None (torch_module T)) seed true w text Hstr)
      as (-> & -> & -> & -> & _).
    auto.
  - rewrite !(set_random_seed_raises random _ _ seed _ w e Hstr). auto.
Qed.

(** X12. The [deterministic] argument decides nothing but the cudnn flags:
    the value returned, the environment, the entropy consumed and the state
    of [random], numpy and the torch generators are the same for
    [deterministic=True] and [deterministic=False]. *)
Theorem deterministic_affects_only_cudnn_flags
    (np : option (numpy_module N)) (torch : option (torch_module T))
    (seed : option pyint) (w : World R N T) :
  let a := set_random_seed random np torch seed true w in
  let b := set_random_seed random np torch seed false w in
  snd a = snd b /\
  environ (fst a) = environ (fst b) /\
  entropy (fst a) = entropy (fst b) /\
  random_inst (fst a) = random_inst (fst b) /\
  np_global (fst a) = np_global (fst b) /\
  torch_gen (fst a) = torch_gen (fst b).
Proof.
  cbv zeta.
  destruct (str (seed_used seed w)) as [text|e] eqn:Hstr.
  - destruct (set_random_seed_effects random np torch seed true w text Hstr)
      as (-> & -> & -> & -> & -> & ->).
    destruct (set_random_seed_effects random np torch seed false w text Hstr)
      as (-> & -> & -> & -> & -> & ->).
    auto 10.
  - rewrite !(set_random_seed_raises random np torch seed _ w e Hstr). auto 10.
Qed.

(** X13. The optional libraries decide nothing outside their own state:
    whichever of numpy and torch are present, and whether their calls return
    or raise, the value returned, the environment, the entropy consumed and
    the state of the [random] generator are the same. *)
Theorem libraries_do_not_affect_core_state
    (np np' : option (numpy_module N)) (torch torch' : option (torch_module T))
    (seed : option pyint) (d d' : bool) (w : World R N T) :
  let a := set_random_seed random np torch seed d w in
  let b := set_random_seed random np' torch' seed d' w in
  snd a = snd b /\
  environ (fst a) = environ (fst b) /\
  entropy (fst a) = entropy (fst b) /\
  random_inst (fst a) = random_inst (fst b).
Proof.
  cbv zeta.
  destruct (core_state_after_call np torch seed d w) as (-> & -> & -> & ->).
  destruct (core_state_after_call np' torch' seed d' w) as (-> & -> & -> & ->).
  auto.
Qed.

End Independence.

(** ** The demo *)

Section Demo.
Context {R N T : Type}.
Variable random : random_module R.
Variable import_numpy : result (numpy_module N).
Variable import_torch : result (torch_module T).

Example seed_message_42 : seed_message 42 = Return "사용된 랜덤 시드: 42".
Proof.
  unfold seed_message. rewrite (str_Int_returns 42); [reflexivity|].
  apply fits_below_10_32. reflexivity.
Qed.

(** Under any other module name (an [import new_calc]) the demo does not
    run: nothing is seeded, read or printed. *)
Lemma imported_module_runs_nothing (name : string) (p : Process R N T) :
  name <> "__main__" ->
  new_calc random import_numpy import_torch name p = (p, Return tt).
Proof.
  intros Hname. unfold new_calc.
  destruct (String.eqb name "__main__") eqn:E; [|reflexivity].
  apply String.eqb_eq in E. contradiction.
Qed.

(** The demo up to the [print]: the seeding returns the generated seed and
    the message is built. *)
Lemma demo_before_print (p : Process R N T) :
  let z := int (seed_used None (globals p)) in
  exists w',
    set_random_seed random (import_or_None import_numpy)
      (import_or_None import_torch) None true (globals p) = (w', Return z) /\
    random_inst w' = rnd_seed random z /\
    seed_message z = Return ("사용된 랜덤 시드: " +:+ decimal z).
Proof.
  cbv zeta.
  destruct (set_random_seed_effects random (import_or_None import_numpy)
              (import_or_None import_torch) None true (globals p) _
              (str_generated_seed (globals p))) as (Hret & _ & _ & Hrnd & _).
  eexists. split; [|split; [exact Hrnd|]].
  - rewrite (surjective_pairing (set_random_seed _ _ _ _ _ _)), Hret. reflexivity.
  - unfold seed_message.
    change (Int (int (seed_used None (globals p))))
      with (seed_used None (globals p)).
    rewrite str_generated_seed. reflexivity.
Qed.

(** X11. Run as a script on a standard output whose encoding can encode the
    message and the end of line, the file finishes without an exception
    whether or not the imports of numpy and torch went through, and appends
    exactly one line to standard output: the fixed message followed by the
    decimal form of a seed in [0, 2^32 - 1] read from the entropy source.
    The seed printed is the one the [random] generator was seeded with. *)
Theorem script_prints_seed_in_effect
    (p : Process R N T) (line_bytes end_bytes : string) :
  let z := int_from_bytes_little
             [entropy (globals p) 0%nat; entropy (globals p) 1%nat;
              entropy (globals p) 2%nat; entropy (globals p) 3%nat] in
  stdout_encode p ("사용된 랜덤 시드: " +:+ decimal z) = Some line_bytes ->
  stdout_encode p newline = Some end_bytes ->
  exists p' : Process R N T,
    new_calc random import_numpy import_torch "__main__" p = (p', Return tt) /\
    0 <= z <= 2 ^ 32 - 1 /\
    seed_message z = Return ("사용된 랜덤 시드: " +:+ decimal z) /\
    stdout p' = (stdout p +:+ line_bytes) +:+ end_bytes /\
    random_inst (globals p') = rnd_seed random z.
Proof.
  intros z Hline Hend.
  destruct (demo_before_print p) as (w' & Hrun & Hrnd & Hmsg).
  change (int (seed_used None (globals p))) with z in Hrun, Hrnd, Hmsg.
  unfold new_calc. cbn [String.eqb Ascii.eqb Bool.eqb].
  rewrite Hrun, Hmsg.
  unfold print, stdout_write. cbn [stdout_encode stdout globals].
  rewrite Hline. cbn [stdout_encode stdout globals]. rewrite Hend.
  eexists. split; [reflexivity|].
  split; [apply (seed_from_entropy_range (globals p))|].
  split; [reflexivity|]. split; [reflexivity|exact Hrnd].
Qed.

(** X14. If the encoding of standard output cannot encode the message, the
    script ends with [UnicodeEncodeError] and nothing is written; the
    seeding has been done by then. *)
Theorem script_fails_when_stdout_cannot_encode (p : Process R N T) :
  let z := int_from_bytes_little
             [entropy (globals p) 0%nat; entropy (globals p) 1%nat;
              entropy (globals p) 2%nat; entropy (globals p) 3%nat] in
  stdout_encode p ("사용된 랜덤 시드: " +:+ decimal z) = None ->
  exists p' : Process R N T,
    new_calc random import_numpy import_torch "__main__" p
      = (p', Raise UnicodeEncodeError) /\
    stdout p' = stdout p /\
    random_inst (globals p') = rnd_seed random z.
Proof.
  intros z Hline.
  destruct (demo_before_print p) as (w' & Hrun & Hrnd & Hmsg).
  change (int (seed_used None (globals p))) with z in Hrun, Hrnd, Hmsg.
  unfold new_calc. cbn [String.eqb Ascii.eqb Bool.eqb].
  rewrite Hrun, Hmsg.
  unfold print, stdout_write. cbn [stdout_encode stdout globals].
  rewrite Hline.
  eexists. split; [reflexivity|]. split; [reflexivity|exact Hrnd].
Qed.

End Demo.

(** ** Concrete runs of the further properties *)

Section MoreRuns.
Import Doubles.

Example script_output :
  exists p',
    new_calc lcg (Return numpy) (Raise (OtherException "ImportError"))
      "__main__" (mkProcess (fresh false) "" encode_utf_8) = (p', Return tt) /\
    stdout p' = ("" +:+ "사용된 랜덤 시드: 67305985") +:+ newline.
Proof.
  destruct (script_prints_seed_in_effect lcg (Return numpy)
              (Raise (OtherException "ImportError"))
              (mkProcess (fresh false) "" encode_utf_8)
              "사용된 랜덤 시드: 67305985" newline eq_refl eq_refl)
    as (p' & Hrun & _ & _ & Hout & _).
  exists p'. split; [exact Hrun|exact Hout].
Qed.

Lemma other_variables_untouched_witness :
  let w := process {[ "PATH" := "/usr/bin" ]} true in
  "PATH" <> PYTHONHASHSEED /\
  environ (fst (set_random_seed lcg (Some numpy) (Some torch) (Some (Int 42)) true w))
    !! "PATH" = Some "/usr/bin".
Proof.
  intros w. split; [discriminate|].
  rewrite (other_variables_untouched lcg (Some numpy) (Some torch)
             (Some (Int 42)) true w "PATH"); [reflexivity|discriminate].
Defined.

Lemma cudnn_flags_untouched_or_deterministic_witness :
  let w := fresh true in
  let w' := fst (set_random_seed lcg (Some numpy) (Some torch) (Some (Int 42)) false w) in
  cudnn_deterministic w' = false /\ cudnn_benchmark w' = true.
Proof.
  intros w w'.
  apply (proj2 (cudnn_flags_untouched_or_deterministic lcg (Some numpy) (Some torch)
                  (Some (Int 42)) false w)).
  reflexivity.
Defined.

Lemma second_call_keeps_environment_witness :
  str (Int 1) = Return "1" /\
  let w1 := fst (set_random_seed lcg (Some numpy) (Some torch) (Some (Int 1)) true
                   (fresh true)) in
  let w2 := fst (set_random_seed lcg (Some numpy) (Some torch)
                   (Some (Int huge)) true w1) in
  environ w2 = environ w1.
Proof.
  split; [exact str_1|].
  apply (second_call_keeps_environment lcg (Some numpy) (Some torch)
           (Some (Int 1)) (Some (Int huge)) true true (fresh true) "1" str_1).
Defined.

Lemma first_seed_in_environment_last_seed_in_generator_witness :
  environ (fresh true) !! PYTHONHASHSEED = None /\
  str (Int 1) = Return "1" /\ str (Bool true) = Return "True" /\
  let w1 := fst (set_random_seed lcg (Some numpy) (Some torch) (Some (Int 1)) true
                   (fresh true)) in
  let r2 := set_random_seed lcg (Some numpy) (Some torch) (Some (Bool true)) false w1 in
  snd r2 = Return 1 /\
  environ (fst r2) !! PYTHONHASHSEED = Some "1" /\
  random_inst (fst r2) = rnd_seed lcg 1.
Proof.
  split; [reflexivity|]. split; [exact str_1|]. split; [reflexivity|].
  apply (first_seed_in_environment_last_seed_in_generator lcg (Some numpy) (Some torch)
           (Int 1) (Bool true) true false (fresh true) "1" "True"
           eq_refl str_1 eq_refl).
Defined.

Lemma hashseed_identifies_seed_witness :
  Z.abs 42 < 10 ^ int_max_str_digits /\
  environ (fresh true) !! PYTHONHASHSEED = None /\
  environ (fresh false) !! PYTHONHASHSEED = None /\
  (42 : Z) = 42.
Proof.
  assert (H : Z.abs 42 < 10 ^ int_max_str_digits)
    by (apply fits_below_10_32; reflexivity).
  split; [exact H|].
  split; [reflexivity|]. split; [reflexivity|].
  apply (hashseed_identifies_seed lcg (Some numpy) (Some torch) 42 42 true false
           (fresh true) (fresh false) H H eq_refl eq_refl).
  rewrite !(set_random_seed_returning lcg (Some numpy) (Some torch) (Some (Int 42))
              _ _ "42" str_42).
  reflexivity.
Defined.

Lemma script_prints_seed_in_effect_witness :
  let p := mkProcess (fresh false) "" encode_utf_8 in
  exists p',
    new_calc lcg (Return numpy) (Return torch) "__main__" p = (p', Return tt) /\
    0 <= 67305985 <= 2 ^ 32 - 1 /\
    seed_message 67305985 = Return "사용된 랜덤 시드: 67305985" /\
    stdout p' = ("" +:+ "사용된 랜덤 시드: 67305985") +:+ newline /\
    random_inst (globals p') = rnd_seed lcg 67305985.
Proof.
  intros p.
  apply (script_prints_seed_in_effect lcg (Return numpy) (Return torch) p
           "사용된 랜덤 시드: 67305985" newline);
    reflexivity.
Defined.

Lemma script_fails_when_stdout_cannot_encode_witness :
  let p := mkProcess (fresh false) "" encode_ascii in
  exists p',
    new_calc lcg (Return numpy) (Return torch) "__main__" p
      = (p', Raise UnicodeEncodeError) /\
    stdout p' = "" /\
    random_inst (globals p') = rnd_seed lcg 67305985.
Proof.
  intros p.
  apply (script_fails_when_stdout_cannot_encode lcg (Return numpy) (Return torch) p).
  reflexivity.
Defined.

End MoreRuns.
